(** * Parameter model of a multirotor vehicle ([vehicle.py])

    A shallow embedding of the dataclasses [MotorParams], [PropellerParams]
    and [VehicleParams] and of their [__post_init__] methods.

    The floating-point type and the numeric primitives of Python and numpy
    ([*], [/], [**], [np.pi], [np.sin], [np.cos], [np.arctan2],
    [np.linalg.inv], [np.linalg.pinv]) are not part of the repository: they
    are the fields of the interfaces [PyFloat] and [NumPy].  The embedding
    of the source is generic in these interfaces, and is instantiated on the
    real numbers (module [Ideal]) where a statement needs the laws of
    arithmetic. *)

From Stdlib Require Import ZArith QArith List Bool Lia.
From Stdlib Require Import Reals Lra Qreals ClassicalEpsilon.
From stdpp Require Import base option list.

(** ** Exceptions *)

(** The exceptions the constructors can raise. [LinAlgError] is numpy's
    error for a singular matrix, [ValueError] its error for operands that
    cannot be broadcast together, [IndexError] the error of an index out of
    bounds, [TypeError] the error of arithmetic on [None], [AttributeError]
    the error of reading an attribute that was never assigned. *)
Inductive exn : Type :=
| LinAlgError
| ValueError
| IndexError
| TypeError
| AttributeError.

#[global] Instance exn_eq_dec : EqDecision exn.
Proof. solve_decision. Defined.

(** The outcome of a computation that returns or raises. *)
Inductive Exc (A : Type) : Type :=
| Ok (a : A)
| Raise (e : exn).
Arguments Ok {A} a.
Arguments Raise {A} e.

Definition exc_bind {A B} (m : Exc A) (k : A -> Exc B) : Exc B :=
  match m with
  | Ok a => k a
  | Raise e => Raise e
  end.

(** An attribute of an object: absent until the first assignment. *)
Inductive attr (A : Type) : Type :=
| Unset
| Value (a : A).
Arguments Unset {A}.
Arguments Value {A} a.

(** [self.name], read. *)
Definition getattr {A} (x : attr A) : Exc A :=
  match x with
  | Value a => Ok a
  | Unset => Raise AttributeError
  end.

(** A two-dimensional array, as the list of its rows. *)
Definition matrix (F : Type) : Type := list (list F).

(** ** The numeric library *)

(** Python's [float] and its arithmetic. *)
Class PyFloat : Type := {
  float : Type;
  (** conversion of a Python [int] operand in mixed arithmetic *)
  of_int : Z -> float;
  (** value of a decimal float literal *)
  float_lit : Q -> float;
  fneg : float -> float;
  fadd : float -> float -> float;
  fmul : float -> float -> float;
  fdiv : float -> float -> float;
  fpow : float -> Z -> float;
}.

(** The functions of numpy the source calls. *)
Class NumPy `{PyFloat} : Type := {
  np_pi : float;
  np_sin : float -> float;
  np_cos : float -> float;
  np_arctan2 : float -> float -> float;
  np_linalg_inv : matrix float -> Exc (matrix float);
  np_linalg_pinv : matrix float -> Exc (matrix float);
}.

(** ** Python and numpy operations on sequences *)

#[global] Instance Exc_ret : MRet Exc := @Ok.
#[global] Instance Exc_bind : MBind Exc := fun A B k m => exc_bind m k.

(** [l[i]] for a non-negative index: [IndexError] out of bounds. *)
Definition getitem {A} (l : list A) (i : nat) : Exc A :=
  match l !! i with
  | Some x => Ok x
  | None => Raise IndexError
  end.

(** An operand that must not be [None]: arithmetic on [None] is a
    [TypeError]. *)
Definition operand {A} (o : option A) : Exc A :=
  match o with
  | Some x => Ok x
  | None => Raise TypeError
  end.

(** [m[r, i] = v], in place, on a two-dimensional array. *)
Definition setitem2 {A} (m : matrix A) (r i : nat) (v : A) : Exc (matrix A) :=
  match m !! r with
  | Some row =>
      if decide (i < length row) then Ok (<[r := <[i := v]> row]> m)
      else Raise IndexError
  | None => Raise IndexError
  end.

(** [l[start::step] = v]: every [step]-th entry from [start] on. *)
Definition setslice {A} (start step : nat) (v : A) (l : list A) : list A :=
  imap (fun i x =>
          if (start <=? i) && ((i - start) mod step =? 0) then v else x) l.

(** [for i, p in enumerate(ps)], the body updating a local variable and
    possibly raising. *)
Fixpoint for_enumerate {P St} (body : nat -> P -> St -> Exc St)
    (i : nat) (ps : list P) (s : St) : Exc St :=
  match ps with
  | [] => Ok s
  | p :: ps' => s' ← body i p s; for_enumerate body (S i) ps' s'
  end.

(** The shape [(rows, cols)] of a two-dimensional array: every row has
    [cols] entries. *)
Definition has_shape {A} (m : matrix A) (rows cols : nat) : Prop :=
  length m = rows /\ Forall (fun row => length row = cols) m.

(** Column [i] of a two-dimensional array. *)
Definition column {A} (m : matrix A) (i : nat) : list (option A) :=
  map (fun row => row !! i) m.

Section Arrays.
Context `{PyFloat}.

(** [np.zeros((rows, cols))] *)
Definition np_zeros (rows cols : nat) : matrix float :=
  replicate rows (replicate cols (of_int 0)).

(** [np.ones(n, dtype=int)] *)
Definition np_ones (n : nat) : list Z := replicate n 1%Z.

(** [np.eye(n)] *)
Definition np_eye (n : nat) : matrix float :=
  map (fun i => map (fun j => if decide (i = j) then of_int 1 else of_int 0)
                    (seq 0 n)) (seq 0 n).

(** [a * b] on one-dimensional arrays, with numpy's broadcasting: equal
    lengths multiply entry by entry, an array of one entry is stretched,
    any other pair of lengths is a [ValueError]. *)
Definition np_multiply (a b : list float) : Exc (list float) :=
  if decide (length a = length b) then Ok (zip_with fmul a b)
  else match a, b with
       | [a0], _ => Ok (map (fmul a0) b)
       | _, [b0] => Ok (map (fun x => fmul x b0) a)
       | _, _ => Raise ValueError
       end.

(** [a.astype(float)] on an array of floats. *)
Definition astype_float (a : list float) : list float := a.

(** The matrix product [a @ b] on lists of rows; the number of columns
    is read off the first row. *)
Definition dot (u v : list float) : float :=
  foldr fadd (of_int 0) (zip_with fmul u v).

Definition ncols (m : matrix float) : nat :=
  match m with
  | [] => 0
  | row :: _ => length row
  end.

Definition col (m : matrix float) (j : nat) : list float :=
  map (fun row => default (of_int 0) (row !! j)) m.

Definition matmul (a b : matrix float) : matrix float :=
  map (fun row => map (fun j => dot row (col b j)) (seq 0 (ncols b))) a.

(** [m[i, j]], read as zero outside the array. *)
Definition entry (m : matrix float) (i j : nat) : float :=
  default (of_int 0) (m !! i ≫= fun row => row !! j).

Definition symmetric (m : matrix float) : Prop :=
  forall i j, entry m i j = entry m j i.

(** [m'] is the inverse of the square matrix [m]. *)
Definition inverse_of (m m' : matrix float) : Prop :=
  has_shape m' (length m) (length m) /\ matmul m' m = np_eye (length m).

Definition invertible (m : matrix float) : Prop :=
  exists m', inverse_of m m'.

Definition singular (m : matrix float) : Prop := ~ invertible m.

(** [g] is the Moore-Penrose pseudoinverse of [a]. *)
Definition pseudoinverse_of (a g : matrix float) : Prop :=
  has_shape g (ncols a) (length a)
  /\ matmul (matmul a g) a = a
  /\ matmul (matmul g a) g = g
  /\ symmetric (matmul a g)
  /\ symmetric (matmul g a).
End Arrays.

(** ** [MotorParams] *)

Module MotorParams.
Section WithNumPy.
Context `{PyFloat}.

Record t : Type := mk {
  k_m : float;
  k_e : option float;
  k_q : option float;
}.
End WithNumPy.
End MotorParams.

(** ** [PropellerParams] *)

Module PropellerParams.
Section WithNumPy.
Context `{NumPy}.

(** The dataclass fields, then the attributes [__post_init__] assigns. *)
Record t : Type := mk {
  moment_of_inertia : float;
  diameter : float;
  pitch : float;
  a : float;
  b : Z;
  c : float;
  eta : float;
  k_thrust : option float;
  k_torque : option float;
  motor : option MotorParams.t;
  R : attr float;
  A : attr float;
  theta0 : attr float;
  theta1 : attr float;
}.

Definition set_moment_of_inertia (v : float) (self : t) : t :=
  mk v (diameter self) (pitch self) (a self) (b self) (c self) (eta self)
     (k_thrust self) (k_torque self) (motor self)
     (R self) (A self) (theta0 self) (theta1 self).

Definition set_R (v : float) (self : t) : t :=
  mk (moment_of_inertia self) (diameter self) (pitch self) (a self) (b self)
     (c self) (eta self) (k_thrust self) (k_torque self) (motor self)
     (Value v) (A self) (theta0 self) (theta1 self).

Definition set_A (v : float) (self : t) : t :=
  mk (moment_of_inertia self) (diameter self) (pitch self) (a self) (b self)
     (c self) (eta self) (k_thrust self) (k_torque self) (motor self)
     (R self) (Value v) (theta0 self) (theta1 self).

Definition set_theta0 (v : float) (self : t) : t :=
  mk (moment_of_inertia self) (diameter self) (pitch self) (a self) (b self)
     (c self) (eta self) (k_thrust self) (k_torque self) (motor self)
     (R self) (A self) (Value v) (theta1 self).

Definition set_theta1 (v : float) (self : t) : t :=
  mk (moment_of_inertia self) (diameter self) (pitch self) (a self) (b self)
     (c self) (eta self) (k_thrust self) (k_torque self) (motor self)
     (R self) (A self) (theta0 self) (Value v).

(** [float(x)] on a float. *)
Definition py_float (x : float) : float := x.

(** [PropellerParams.__post_init__]; products and quotients associate to
    the left, as Python parses them, and [-4 / 3] is [(-4) / 3]. *)
Definition __post_init__ (self : t) : Exc t :=
  let self := set_moment_of_inertia (py_float (moment_of_inertia self)) self in
  let self := set_R (fmul (diameter self) (float_lit (254 # 10000))) self in
  r ← getattr (R self);
  let self := set_A (fmul np_pi (fpow r 2)) self in
  let self :=
    set_theta0
      (fmul (of_int 2)
         (np_arctan2 (pitch self)
            (fdiv (fmul (fdiv (fmul (fmul (of_int 2) np_pi) (of_int 3))
                              (of_int 4))
                        (diameter self))
                  (of_int 2)))) self in
  let self :=
    set_theta1
      (fmul (fdiv (of_int (-4)) (of_int 3))
         (np_arctan2 (pitch self)
            (fdiv (fmul (fdiv (fmul (fmul (of_int 2) np_pi) (of_int 3))
                              (of_int 4))
                        (diameter self))
                  (of_int 2)))) self in
  Ok self.

(** The generated [__init__]: store the fields, then run
    [__post_init__]. *)
Definition __init__ (moment_of_inertia diameter pitch a : float) (b : Z)
    (c eta : float) (k_thrust k_torque : option float)
    (motor : option MotorParams.t) : Exc t :=
  __post_init__
    (mk moment_of_inertia diameter pitch a b c eta k_thrust k_torque motor
        Unset Unset Unset Unset).

(** The defaults of the optional fields. *)
Definition default_diameter : float := of_int 6.
Definition default_pitch : float := of_int 3.
Definition default_a : float := float_lit (57 # 10).
Definition default_b : Z := 2.
Definition default_c : float := float_lit (274 # 10000).
Definition default_eta : float := float_lit 1.
End WithNumPy.
End PropellerParams.

(** ** [VehicleParams] *)

(** [o is None] and [o is not None] *)
Definition is_None {A} (o : option A) : bool :=
  match o with
  | Some _ => false
  | None => true
  end.

Definition is_not_None {A} (o : option A) : bool := negb (is_None o).

Module VehicleParams.
Section WithNumPy.
Context `{NumPy}.

(** The dataclass fields, then the attributes [__post_init__] assigns.
    [clockwise], [alloc] and [alloc_inverse] can hold [None]. *)
Record t : Type := mk {
  propellers : list PropellerParams.t;
  angles : list float;
  distances : list float;
  clockwise : option (list Z);
  mass : float;
  inertia_matrix : matrix float;
  inertia_matrix_inverse : attr (matrix float);
  alloc : attr (option (matrix float));
  alloc_inverse : attr (option (matrix float));
}.

Definition set_distances (v : list float) (self : t) : t :=
  mk (propellers self) (angles self) v (clockwise self) (mass self)
     (inertia_matrix self) (inertia_matrix_inverse self) (alloc self)
     (alloc_inverse self).

Definition set_clockwise (v : option (list Z)) (self : t) : t :=
  mk (propellers self) (angles self) (distances self) v (mass self)
     (inertia_matrix self) (inertia_matrix_inverse self) (alloc self)
     (alloc_inverse self).

Definition set_inertia_matrix_inverse (v : matrix float) (self : t) : t :=
  mk (propellers self) (angles self) (distances self) (clockwise self)
     (mass self) (inertia_matrix self) (Value v) (alloc self)
     (alloc_inverse self).

Definition set_alloc (v : option (matrix float)) (self : t) : t :=
  mk (propellers self) (angles self) (distances self) (clockwise self)
     (mass self) (inertia_matrix self) (inertia_matrix_inverse self)
     (Value v) (alloc_inverse self).

Definition set_alloc_inverse (v : option (matrix float)) (self : t) : t :=
  mk (propellers self) (angles self) (distances self) (clockwise self)
     (mass self) (inertia_matrix self) (inertia_matrix_inverse self)
     (alloc self) (Value v).

(** A method body: it runs on [self], may assign attributes, and returns
    or raises; the assignments made before an exception stay. *)
Definition method (A : Type) : Type := t -> t * Exc A.

#[global] Instance method_ret : MRet method := fun A a self => (self, Ok a).
#[global] Instance method_bind : MBind method := fun A B k m self =>
  match m self with
  | (self', Ok a) => k a self'
  | (self', Raise e) => (self', Raise e)
  end.

Definition get_self : method t := fun self => (self, Ok self).
Definition setattr (f : t -> t) : method unit := fun self => (f self, Ok tt).
Definition call {A} (r : Exc A) : method A := fun self => (self, r).

(** The body of the loop over the propellers: column [i] of [alloc]. *)
Definition alloc_column (self : t) (x y : list float) (i : nat)
    (p : PropellerParams.t) (alloc : matrix float) : Exc (matrix float) :=
  k_thrust ← operand (PropellerParams.k_thrust p);
  alloc ← setitem2 alloc 0 i (fneg k_thrust);
  x_i ← getitem x i;
  alloc ← setitem2 alloc 1 i (fmul k_thrust x_i);
  y_i ← getitem y i;
  alloc ← setitem2 alloc 2 i (fmul k_thrust y_i);
  k_torque ← operand (PropellerParams.k_torque p);
  clockwise ← operand (clockwise self);
  clockwise_i ← getitem clockwise i;
  setitem2 alloc 3 i (fmul k_torque (of_int clockwise_i)).

(** The guard of the allocation step. *)
Definition coefficients_provided (ps : list PropellerParams.t) : bool :=
  forallb (fun p => is_not_None (PropellerParams.k_thrust p)) ps
  && forallb (fun p => is_not_None (PropellerParams.k_torque p)) ps.

(** [VehicleParams.__post_init__] *)
Definition __post_init__ : method unit :=
  self ← get_self;
  setattr (set_distances (astype_float (distances self)));;
  self ← get_self;
  inverse ← call (np_linalg_inv (inertia_matrix self));
  setattr (set_inertia_matrix_inverse inverse);;
  self ← get_self;
  (if is_None (clockwise self) then
     setattr (set_clockwise (Some (np_ones (length (propellers self)))));;
     setattr (fun self =>
                set_clockwise (setslice 0 2 1%Z <$> clockwise self) self);;
     setattr (fun self =>
                set_clockwise (setslice 1 2 (-1)%Z <$> clockwise self) self)
   else mret tt);;
  self ← get_self;
  if coefficients_provided (propellers self) then
    let alloc := np_zeros 4 (length (propellers self)) in
    x ← call (np_multiply (distances self) (map np_sin (angles self)));
    y ← call (np_multiply (distances self) (map np_cos (angles self)));
    alloc ← call (for_enumerate (alloc_column self x y) 0
                                (propellers self) alloc);
    setattr (set_alloc (Some alloc));;
    pseudoinverse ← call (np_linalg_pinv alloc);
    setattr (set_alloc_inverse (Some pseudoinverse))
  else
    setattr (set_alloc None);;
    setattr (set_alloc_inverse None).

(** The generated [__init__]: store the fields, then run
    [__post_init__]; the caller gets the object only if nothing was
    raised. *)
Definition __init__ (propellers : list PropellerParams.t)
    (angles distances : list float) (clockwise : option (list Z))
    (mass : float) (inertia_matrix : matrix float) : Exc t :=
  match __post_init__ (mk propellers angles distances clockwise mass
                          inertia_matrix Unset Unset Unset) with
  | (self, Ok _) => Ok self
  | (_, Raise e) => Raise e
  end.

(** The defaults of the optional fields. *)
Definition default_clockwise : option (list Z) := None.
Definition default_mass : float := float_lit 1.
Definition default_inertia_matrix : matrix float := np_eye 3.
End WithNumPy.
End VehicleParams.

(** ** [SimulationParams] *)

Module SimulationParams.
Section WithFloat.
Context `{PyFloat}.

Record t : Type := mk {
  dt : float;
  g : float;
  rho : float;
}.

(** The defaults of the fields. *)
Definition default_dt : float := float_lit (1 # 100).
Definition default_g : float := float_lit (981 # 100).
Definition default_rho : float := float_lit (1225 # 1000).
End WithFloat.
End SimulationParams.

(** ** What the source expects of [np.linalg]

    [np.linalg.inv] raises [LinAlgError] on a singular matrix and returns
    the inverse of an invertible one; [np.linalg.pinv] returns a generalised
    inverse of its argument. Both results are right within a numeric
    tolerance, the relation [close]. *)
Section Contracts.
Context `{NumPy}.
Variable close : matrix float -> matrix float -> Prop.


Definition pinv_contract : Prop :=
  forall a g, np_linalg_pinv a = Ok g -> close (matmul (matmul a g) a) a.
End Contracts.

(** ** The steps of [VehicleParams.__post_init__], one by one *)

(** The default spin directions: [+1] at the even indices, [-1] at the odd
    ones. *)
Definition alternating (n : nat) : list Z :=
  map (fun i => if Nat.even i then 1%Z else (-1)%Z) (seq 0 n).

Section Steps.
Context `{NumPy}.
Import VehicleParams.

(** The state after the inertia matrix was inverted. *)
Definition inertia_step (inverse : matrix float) (self : t) : t :=
  set_inertia_matrix_inverse inverse
    (set_distances (astype_float (distances self)) self).

(** The state after the spin-direction default. *)
Definition spin_step (self : t) : t :=
  if is_None (clockwise self) then
    set_clockwise (Some (alternating (length (propellers self)))) self
  else self.

(** The allocation step, from the state [self]. *)
Definition allocation_step (self : t) : t * Exc unit :=
  if coefficients_provided (propellers self) then
    match np_multiply (distances self) (map np_sin (angles self)) with
    | Raise e => (self, Raise e)
    | Ok x =>
        match np_multiply (distances self) (map np_cos (angles self)) with
        | Raise e => (self, Raise e)
        | Ok y =>
            match for_enumerate (alloc_column self x y) 0 (propellers self)
                    (np_zeros 4 (length (propellers self))) with
            | Raise e => (self, Raise e)
            | Ok alloc =>
                match np_linalg_pinv alloc with
                | Raise e => (set_alloc (Some alloc) self, Raise e)
                | Ok g =>
                    (set_alloc_inverse (Some g) (set_alloc (Some alloc) self),
                     Ok tt)
                end
            end
        end
    end
  else (set_alloc_inverse None (set_alloc None self), Ok tt).
End Steps.

(** ** The argument of [np.arctan2] in [theta0] and [theta1] *)

Section BladeAngle.
Context `{NumPy}.

Definition blade_angle (diameter pitch : float) : float :=
  np_arctan2 pitch
    (fdiv (fmul (fdiv (fmul (fmul (of_int 2) np_pi) (of_int 3)) (of_int 4))
                diameter)
          (of_int 2)).
End BladeAngle.

(** ** The ideal interpretation: floats as real numbers *)

Module Ideal.
Local Open Scope R_scope.

(** The angle of the point [(x, y)], in the range of [np.arctan2]. *)
Definition atan2 (y x : R) : R :=
  match total_order_T x 0 with
  | inleft (left _) => if Rle_dec 0 y then atan (y / x) + PI else atan (y / x) - PI
  | inleft (right _) =>
      match total_order_T y 0 with
      | inleft (left _) => - (PI / 2)
      | inleft (right _) => 0
      | inright _ => PI / 2
      end
  | inright _ => atan (y / x)
  end.

#[export] Instance real_float : PyFloat := {|
  float := R;
  of_int := IZR;
  float_lit := Q2R;
  fneg := Ropp;
  fadd := Rplus;
  fmul := Rmult;
  fdiv := Rdiv;
  fpow := powerRZ;
|}.

(** The inverse when there is one, [LinAlgError] otherwise. *)
Definition inv (m : matrix R) : Exc (matrix R) :=
  match excluded_middle_informative (invertible m) with
  | left Hex => Ok (proj1_sig (constructive_indefinite_description _ Hex))
  | right _ => Raise LinAlgError
  end.

(** The Moore-Penrose pseudoinverse. *)
Definition pinv (a : matrix R) : Exc (matrix R) :=
  match excluded_middle_informative (exists g, pseudoinverse_of a g) with
  | left Hex => Ok (proj1_sig (constructive_indefinite_description _ Hex))
  | right _ => Raise LinAlgError
  end.

#[export] Instance real_numpy : NumPy := {|
  np_pi := PI;
  np_sin := sin;
  np_cos := cos;
  np_arctan2 := atan2;
  np_linalg_inv := inv;
  np_linalg_pinv := pinv;
|}.
End Ideal.

(** ** Example vehicles, in the ideal interpretation *)

Module Examples.
Import Ideal.
Local Open Scope R_scope.

(** A propeller of the default geometry (6 x 3 inches), as its
    constructor returns it. *)
Definition propeller (k_thrust k_torque : option R) : PropellerParams.t :=
  PropellerParams.mk 1 PropellerParams.default_diameter
    PropellerParams.default_pitch PropellerParams.default_a
    PropellerParams.default_b PropellerParams.default_c
    PropellerParams.default_eta k_thrust k_torque None
    (Value (6 * Q2R (254 # 10000)))
    (Value (PI * powerRZ (6 * Q2R (254 # 10000)) 2))
    (Value (2 * blade_angle 6 3))
    (Value (-4 / 3 * blade_angle 6 3)).

(** One propeller at the centre of mass, with both coefficients. *)
Definition single : list PropellerParams.t := [propeller (Some 1) (Some 1)].

End Examples.

(** ** A propeller before its derivation *)

Module Layouts.
Import Ideal Examples.
Local Open Scope R_scope.

(** The fields of a propeller of the given diameter and pitch, before
    [__post_init__] has run. *)
Definition blank (diameter pitch : R) : PropellerParams.t :=
  PropellerParams.mk 1 diameter pitch PropellerParams.default_a
    PropellerParams.default_b PropellerParams.default_c
    PropellerParams.default_eta None None None Unset Unset Unset Unset.
End Layouts.

(** * Properties *)

(** ** Sequences and arrays *)

Lemma getitem_Ok {A} (l : list A) (i : nat) (x : A) :
  getitem l i = Ok x <-> l !! i = Some x.
Proof. unfold getitem. destruct (l !! i); split; congruence. Qed.


Lemma setslice_length {A} (start step : nat) (v : A) (l : list A) :
  length (setslice start step v l) = length l.
Proof. unfold setslice. apply length_imap. Qed.

Lemma setslice_lookup {A} (start step : nat) (v : A) (l : list A) (i : nat) :
  setslice start step v l !! i =
  (fun x => if (start <=? i) && ((i - start) mod step =? 0) then v else x)
    <$> l !! i.
Proof. unfold setslice. apply list_lookup_imap. Qed.

Lemma alternating_length (n : nat) : length (alternating n) = n.
Proof. unfold alternating. by rewrite length_map, length_seq. Qed.

Lemma alternating_lookup (n i : nat) :
  i < n -> alternating n !! i = Some (if Nat.even i then 1%Z else (-1)%Z).
Proof.
  intros Hi. unfold alternating.
  rewrite list_lookup_fmap, lookup_seq_lt by done. done.
Qed.

Lemma mod2_even (i : nat) : (i mod 2 =? 0) = Nat.even i.
Proof.
  destruct (Nat.even i) eqn:Ev.
  - apply Nat.even_spec in Ev. destruct Ev as [k ->].
    apply Nat.eqb_eq. replace (2 * k) with (0 + k * 2) by lia.
    rewrite Nat.Div0.mod_add. reflexivity.
  - assert (Nat.odd i = true) as Od by (rewrite <- Nat.negb_even, Ev; done).
    apply Nat.odd_spec in Od. destruct Od as [k ->].
    apply Nat.eqb_neq. replace (2 * k + 1) with (1 + k * 2) by lia.
    rewrite Nat.Div0.mod_add. cbn. lia.
Qed.

Lemma setslice_even_odd (i : nat) (x : Z) :
  (if (1 <=? i) && ((i - 1) mod 2 =? 0) then (-1)%Z
   else if (0 <=? i) && ((i - 0) mod 2 =? 0) then 1%Z else x)
  = (if Nat.even i then 1%Z else (-1)%Z).
Proof.
  rewrite Nat.sub_0_r, !mod2_even.
  destruct i as [|i].
  - reflexivity.
  - replace (S i - 1) with i by lia.
    replace (1 <=? S i) with true by (symmetry; apply Nat.leb_le; lia).
    rewrite Nat.even_succ, <- Nat.negb_even.
    cbn [andb Nat.leb]. destruct (Nat.even i); reflexivity.
Qed.

(** The two slice assignments of the source on [np.ones(n)] give the
    alternating sequence. *)
Lemma setslice_ones (n : nat) :
  setslice 1 2 (-1)%Z (setslice 0 2 1%Z (np_ones n)) = alternating n.
Proof.
  apply list_eq. intros i.
  rewrite !setslice_lookup. unfold np_ones.
  destruct (decide (i < n)) as [Hi|Hi].
  - rewrite alternating_lookup, lookup_replicate_2 by done.
    cbn [fmap option_fmap option_map]. f_equal. apply setslice_even_odd.
  - rewrite (lookup_ge_None_2 (alternating n)) by (rewrite alternating_length; lia).
    assert (replicate n 1%Z !! i = None) as ->.
    { apply lookup_ge_None_2. rewrite length_replicate. lia. }
    reflexivity.
Qed.

(** ** [VehicleParams.__post_init__], step by step *)

Section VehicleSteps.
Context `{NumPy}.
Import VehicleParams.

Lemma post_init_unfold (self : t) :
  __post_init__ self =
  match np_linalg_inv (inertia_matrix self) with
  | Raise e => (set_distances (astype_float (distances self)) self, Raise e)
  | Ok inverse => allocation_step (spin_step (inertia_step inverse self))
  end.
Proof.
  unfold __post_init__, allocation_step, spin_step, inertia_step.
  unfold mbind, method_bind, mret, method_ret, get_self, setattr, call.
  cbn -[setslice np_ones np_zeros np_multiply for_enumerate].
  destruct (np_linalg_inv (inertia_matrix self)) as [inverse|e]; [|done].
  destruct (clockwise self) as [cw|] eqn:Hcw;
    cbn -[setslice np_ones np_zeros np_multiply for_enumerate].
  - destruct (coefficients_provided (propellers self)); [|done].
    repeat (case_match; try done).
  - rewrite setslice_ones.
    destruct (coefficients_provided (propellers self)); [|done].
    repeat (case_match; try done).
Qed.

Lemma init_post_init (ps : list PropellerParams.t) (a d : list float)
    (cw : option (list Z)) (ms : float) (im : matrix float) (r : Exc t) :
  __init__ ps a d cw ms im = r <->
  match r with
  | Ok self' => __post_init__ (mk ps a d cw ms im Unset Unset Unset) = (self', Ok tt)
  | Raise e => exists self', __post_init__ (mk ps a d cw ms im Unset Unset Unset)
                             = (self', Raise e)
  end.
Proof.
  unfold __init__.
  destruct (__post_init__ _) as [self' [[]|e]]; destruct r as [v|e'].
  - split; congruence.
  - split; [discriminate|]. intros [? ?]. congruence.
  - split; congruence.
  - split; [intros [= ->]; eauto|]. intros [? ?]. congruence.
Qed.

Lemma coefficients_provided_spec (ps : list PropellerParams.t) :
  coefficients_provided ps = true <->
  Forall (fun p => is_Some (PropellerParams.k_thrust p)
                   /\ is_Some (PropellerParams.k_torque p)) ps.
Proof.
  unfold coefficients_provided.
  rewrite andb_true_iff, !forallb_forall, Forall_forall.
  setoid_rewrite <- list_elem_of_In.
  split.
  - intros [Ht Hq] p Hp. specialize (Ht p Hp). specialize (Hq p Hp).
    destruct (PropellerParams.k_thrust p), (PropellerParams.k_torque p);
      try discriminate; eauto.
  - intros Hall. split; intros p Hp; destruct (Hall p Hp) as [[? Ht] [? Hq]].
    + by rewrite Ht.
    + by rewrite Hq.
Qed.

Lemma has_shape_4 {A} (m : matrix A) (n : nat) :
  has_shape m 4 n <->
  exists r0 r1 r2 r3, m = [r0; r1; r2; r3]
    /\ length r0 = n /\ length r1 = n /\ length r2 = n /\ length r3 = n.
Proof.
  unfold has_shape. split.
  - intros [Hlen Hrows].
    destruct m as [|r0 [|r1 [|r2 [|r3 [|]]]]]; try discriminate.
    repeat match goal with
           | Hf : Forall _ (_ :: _) |- _ => apply Forall_cons in Hf; destruct Hf
           end.
    eauto 10.
  - intros (r0 & r1 & r2 & r3 & -> & ? & ? & ? & ?).
    split; [done|]. repeat constructor; done.
Qed.

Lemma np_zeros_shape (rows cols : nat) : has_shape (np_zeros rows cols) rows cols.
Proof.
  unfold np_zeros, has_shape. rewrite length_replicate. split; [done|].
  apply Forall_replicate. by rewrite length_replicate.
Qed.

(** One iteration of the loop: the assignments cannot fail inside the
    array, what can fail is the indexing of [x], [y] and [clockwise]. *)
Lemma alloc_column_eq (self : t) (x y : list float) (i : nat)
    (p : PropellerParams.t) (r0 r1 r2 r3 : list float) :
  i < length r0 -> i < length r1 -> i < length r2 -> i < length r3 ->
  alloc_column self x y i p [r0; r1; r2; r3] =
  (kt ← operand (PropellerParams.k_thrust p);
   xi ← getitem x i;
   yi ← getitem y i;
   kq ← operand (PropellerParams.k_torque p);
   cw ← operand (clockwise self);
   ci ← getitem cw i;
   Ok [<[i := fneg kt]> r0; <[i := fmul kt xi]> r1; <[i := fmul kt yi]> r2;
       <[i := fmul kq (of_int ci)]> r3]).
Proof.
  intros Hr0 Hr1 Hr2 Hr3. unfold alloc_column, setitem2.
  unfold mbind, Exc_bind, exc_bind. cbn [lookup list_lookup].
  destruct (operand (PropellerParams.k_thrust p)) as [kt|]; [|done].
  destruct (decide (i < length r0)); [|lia].
  destruct (getitem x i) as [xi|]; [|done]. cbn.
  destruct (decide (i < length r1)); [|lia].
  destruct (getitem y i) as [yi|]; [|done]. cbn.
  destruct (decide (i < length r2)); [|lia].
  destruct (operand (PropellerParams.k_torque p)) as [kq|]; [|done].
  destruct (operand (clockwise self)) as [cw|]; [|done].
  destruct (getitem cw i) as [ci|]; [|done]. cbn.
  destruct (decide (i < length r3)); [|lia]. done.
Qed.

(** The loop invariant: the shape is kept, the columns before [i0] are
    left alone, and column [i0 + j] is the one of the [j]-th propeller. *)
Lemma alloc_loop_Ok (self : t) (x y : list float) (n : nat)
    (ps : list PropellerParams.t) :
  forall (i0 : nat) (r0 r1 r2 r3 : list float) (m' : matrix float),
    length r0 = n -> length r1 = n -> length r2 = n -> length r3 = n ->
    i0 + length ps <= n ->
    for_enumerate (alloc_column self x y) i0 ps [r0; r1; r2; r3] = Ok m' ->
    has_shape m' 4 n
    /\ (forall j, j < i0 -> column m' j = column [r0; r1; r2; r3] j)
    /\ (forall j p, ps !! j = Some p ->
          exists kt kq xi yi cw ci,
            PropellerParams.k_thrust p = Some kt
            /\ PropellerParams.k_torque p = Some kq
            /\ x !! (i0 + j) = Some xi /\ y !! (i0 + j) = Some yi
            /\ clockwise self = Some cw /\ cw !! (i0 + j) = Some ci
            /\ column m' (i0 + j) =
               [Some (fneg kt); Some (fmul kt xi); Some (fmul kt yi);
                Some (fmul kq (of_int ci))]).
Proof.
  induction ps as [|p ps IH]; intros i0 r0 r1 r2 r3 m' Hr0 Hr1 Hr2 Hr3 Hn Hloop.
  - cbn in Hloop. injection Hloop as <-. split; [|split].
    + apply has_shape_4. eauto 10.
    + done.
    + intros j p Hp. by rewrite lookup_nil in Hp.
  - cbn [for_enumerate length] in *.
    rewrite alloc_column_eq in Hloop by lia.
    unfold mbind, Exc_bind, exc_bind in Hloop.
    destruct (PropellerParams.k_thrust p) as [kt|] eqn:Hkt; [|done].
    destruct (getitem x i0) as [xi|] eqn:Hxi; [|done].
    destruct (getitem y i0) as [yi|] eqn:Hyi; [|done].
    destruct (PropellerParams.k_torque p) as [kq|] eqn:Hkq; [|done].
    destruct (clockwise self) as [cw|] eqn:Hcw; [|done].
    cbn [operand] in Hloop.
    destruct (getitem cw i0) as [ci|] eqn:Hci; [|done].
    apply getitem_Ok in Hxi, Hyi, Hci.
    apply IH in Hloop; [|by rewrite length_insert..|lia].
    destruct Hloop as (Hshape & Hbefore & Hcols).
    split; [done|]. split.
    + intros j Hj. rewrite Hbefore by lia. unfold column. cbn.
      by rewrite !list_lookup_insert_ne by lia.
    + intros [|j] q Hq.
      * cbn in Hq. injection Hq as <-. rewrite Nat.add_0_r.
        exists kt, kq, xi, yi, cw, ci. repeat (split; [done|]).
        rewrite Hbefore by lia. unfold column. cbn.
        by rewrite !list_lookup_insert_eq by lia.
      * cbn in Hq. apply Hcols in Hq.
        replace (i0 + S j) with (S i0 + j) by lia.
        destruct Hq as (kt' & kq' & xi' & yi' & cw' & ci' & ? & ? & ? & ? & ? & ? & ?).
        exists kt', kq', xi', yi', cw', ci'. done.
Qed.

(** The loop returns when [x], [y] and [clockwise] are long enough. *)
Lemma alloc_loop_returns (self : t) (x y : list float) (cw : list Z) (n : nat)
    (ps : list PropellerParams.t) :
  coefficients_provided ps = true ->
  clockwise self = Some cw ->
  forall (i0 : nat) (r0 r1 r2 r3 : list float),
    length r0 = n -> length r1 = n -> length r2 = n -> length r3 = n ->
    i0 + length ps <= n ->
    i0 + length ps <= length x -> i0 + length ps <= length y ->
    i0 + length ps <= length cw ->
    exists m', for_enumerate (alloc_column self x y) i0 ps [r0; r1; r2; r3] = Ok m'.
Proof.
  intros Hcoef Hcw. apply coefficients_provided_spec in Hcoef.
  induction Hcoef as [|p ps [[kt Hkt] [kq Hkq]] Hps IH];
    intros i0 r0 r1 r2 r3 Hr0 Hr1 Hr2 Hr3 Hn Hx Hy Hc; cbn [for_enumerate length] in *.
  - eauto.
  - rewrite alloc_column_eq by lia. rewrite Hkt, Hkq, Hcw.
    destruct (lookup_lt_is_Some_2 x i0) as [xi Hxi]; [lia|].
    destruct (lookup_lt_is_Some_2 y i0) as [yi Hyi]; [lia|].
    destruct (lookup_lt_is_Some_2 cw i0) as [ci Hci]; [lia|].
    apply getitem_Ok in Hxi, Hyi, Hci.
    unfold mbind, Exc_bind, exc_bind. cbn [operand].
    rewrite Hxi, Hyi, Hci.
    apply IH; rewrite ?length_insert; lia.
Qed.


Lemma np_multiply_same_length (a b : list float) :
  length a = length b -> np_multiply a b = Ok (zip_with fmul a b).
Proof. intros Hlen. unfold np_multiply. by rewrite decide_True. Qed.


Lemma spin_step_clockwise (self : t) :
  clockwise (spin_step self) =
  Some (match clockwise self with
        | Some cw => cw
        | None => alternating (length (propellers self))
        end).
Proof.
  unfold spin_step. destruct (clockwise self) as [cw|] eqn:Hcw; cbn; done.
Qed.

Lemma spin_step_fields (self : t) :
  propellers (spin_step self) = propellers self
  /\ angles (spin_step self) = angles self
  /\ distances (spin_step self) = distances self
  /\ inertia_matrix_inverse (spin_step self) = inertia_matrix_inverse self
  /\ alloc (spin_step self) = alloc self
  /\ alloc_inverse (spin_step self) = alloc_inverse self.
Proof. unfold spin_step. destruct (clockwise self); cbn; done. Qed.

Lemma post_init_Ok (self self' : t) :
  __post_init__ self = (self', Ok tt) ->
  exists inverse,
    np_linalg_inv (inertia_matrix self) = Ok inverse
    /\ allocation_step (spin_step (inertia_step inverse self)) = (self', Ok tt).
Proof.
  rewrite post_init_unfold.
  destruct (np_linalg_inv (inertia_matrix self)) as [inverse|e]; [eauto|].
  discriminate.
Qed.

Lemma allocation_step_provided (self self' : t) :
  coefficients_provided (propellers self) = true ->
  allocation_step self = (self', Ok tt) ->
  exists x y m g,
    np_multiply (distances self) (map np_sin (angles self)) = Ok x
    /\ np_multiply (distances self) (map np_cos (angles self)) = Ok y
    /\ for_enumerate (alloc_column self x y) 0 (propellers self)
         (np_zeros 4 (length (propellers self))) = Ok m
    /\ np_linalg_pinv m = Ok g
    /\ self' = set_alloc_inverse (Some g) (set_alloc (Some m) self).
Proof.
  intros Hcoef. unfold allocation_step. rewrite Hcoef.
  destruct (np_multiply _ (map np_sin _)) as [x|] eqn:Hx; [|discriminate].
  destruct (np_multiply _ (map np_cos _)) as [y|] eqn:Hy; [|discriminate].
  destruct (for_enumerate _ _ _ _) as [m|] eqn:Hm; [|discriminate].
  destruct (np_linalg_pinv m) as [g|] eqn:Hg; [|discriminate].
  intros [= <-]. exists x, y, m, g. done.
Qed.

Lemma allocation_step_missing (self : t) :
  coefficients_provided (propellers self) = false ->
  allocation_step self = (set_alloc_inverse None (set_alloc None self), Ok tt).
Proof. intros Hcoef. unfold allocation_step. by rewrite Hcoef. Qed.
End VehicleSteps.

(** ** The allocation matrix *)

Section Allocation.
Context `{NumPy}.
Import VehicleParams.

(** What a returned model holds when every propeller has both
    coefficients and [angles] and [distances] have one length. *)
Lemma init_allocated (ps : list PropellerParams.t) (a d : list float)
    (cw : option (list Z)) (ms : float) (im : matrix float) (v : t) :
  __init__ ps a d cw ms im = Ok v ->
  coefficients_provided ps = true ->
  exists m g c,
    alloc v = Value (Some m) /\ alloc_inverse v = Value (Some g)
    /\ np_linalg_pinv m = Ok g
    /\ clockwise v = Some c
    /\ has_shape m 4 (length ps)
    /\ (length a = length d ->
        forall i p, ps !! i = Some p ->
          exists kt kq a_i d_i c_i,
            PropellerParams.k_thrust p = Some kt
            /\ PropellerParams.k_torque p = Some kq
            /\ a !! i = Some a_i /\ d !! i = Some d_i /\ c !! i = Some c_i
            /\ column m i =
               [Some (fneg kt);
                Some (fmul kt (fmul d_i (np_sin a_i)));
                Some (fmul kt (fmul d_i (np_cos a_i)));
                Some (fmul kq (of_int c_i))]).
Proof.
  intros Hinit Hcoef. apply init_post_init in Hinit.
  apply post_init_Ok in Hinit as (inverse & Hinv & Hstep).
  set (s0 := mk ps a d cw ms im Unset Unset Unset) in *.
  destruct (spin_step_fields (inertia_step inverse s0))
    as (Hps & Han & Hdi & _ & _ & _).
  pose proof (spin_step_clockwise (inertia_step inverse s0)) as Hcw.
  set (s2 := spin_step (inertia_step inverse s0)) in *.
  cbn in Hps, Han, Hdi.
  apply allocation_step_provided in Hstep as (x & y & m & g & Hx & Hy & Hloop & Hg & ->);
    [|by rewrite Hps].
  rewrite Hps, Han, Hdi in *. unfold astype_float in *.
  pose proof (np_zeros_shape 4 (length ps)) as Hz.
  apply has_shape_4 in Hz as (r0 & r1 & r2 & r3 & Hz & Hr0 & Hr1 & Hr2 & Hr3).
  rewrite Hz in Hloop.
  eapply alloc_loop_Ok in Hloop as (Hshape & _ & Hcols); [|done..|cbn; lia].
  eexists m, g, _. repeat (split; [done|]).
  intros Hlen i p Hp.
  destruct (Hcols i p Hp)
    as (kt & kq & xi & yi & c & ci & Hkt & Hkq & Hxi & Hyi & Hc & Hci & Hcol).
  cbn in Hxi, Hyi, Hci.
  rewrite np_multiply_same_length in Hx, Hy by by rewrite length_map.
  injection Hx as <-. injection Hy as <-.
  rewrite lookup_zip_with in Hxi, Hyi.
  rewrite list_lookup_fmap in Hxi, Hyi.
  destruct (d !! i) as [d_i|] eqn:Hd; [|done].
  destruct (a !! i) as [a_i|] eqn:Ha; [|done].
  cbn in Hxi, Hyi. injection Hxi as <-. injection Hyi as <-.
  rewrite Hcw in Hc. injection Hc as <-.
  exists kt, kq, a_i, d_i, ci. done.
Qed.

(** C1: when every propeller has a [k_thrust] and a [k_torque] (and
    [angles] and [distances] have one length, as the data model requires),
    the [alloc] of the constructed model is a 4-by-N matrix whose column
    [i] is [-k_thrust_i, k_thrust_i * x_i, k_thrust_i * y_i,
    k_torque_i * clockwise_i], with [x_i = distances_i * sin(angles_i)] and
    [y_i = distances_i * cos(angles_i)]. *)
Theorem alloc_columns (ps : list PropellerParams.t) (a d : list float)
    (cw : option (list Z)) (ms : float) (im : matrix float) (v : t) :
  __init__ ps a d cw ms im = Ok v ->
  Forall (fun p => is_Some (PropellerParams.k_thrust p)
                   /\ is_Some (PropellerParams.k_torque p)) ps ->
  length a = length d ->
  exists m c,
    alloc v = Value (Some m)
    /\ clockwise v = Some c
    /\ has_shape m 4 (length ps)
    /\ forall i p, ps !! i = Some p ->
         exists kt kq a_i d_i c_i,
           PropellerParams.k_thrust p = Some kt
           /\ PropellerParams.k_torque p = Some kq
           /\ a !! i = Some a_i /\ d !! i = Some d_i /\ c !! i = Some c_i
           /\ column m i =
              [Some (fneg kt);
               Some (fmul kt (fmul d_i (np_sin a_i)));
               Some (fmul kt (fmul d_i (np_cos a_i)));
               Some (fmul kq (of_int c_i))].
Proof.
  intros Hinit Hcoef Hlen. apply coefficients_provided_spec in Hcoef.
  destruct (init_allocated _ _ _ _ _ _ _ Hinit Hcoef)
    as (m & g & c & Hm & _ & _ & Hc & Hshape & Hcols).
  exists m, c. eauto.
Qed.



End Allocation.

(** ** The order of the derivation steps *)

Section Derivation.
Context `{NumPy}.
Import VehicleParams.

Lemma allocation_step_keeps (self : t) :
  clockwise (allocation_step self).1 = clockwise self
  /\ inertia_matrix_inverse (allocation_step self).1
     = inertia_matrix_inverse self.
Proof. unfold allocation_step. repeat case_match; done. Qed.

(** The state a successful inversion leaves, whatever happens next. *)
Lemma post_init_inverted (self : t) (inverse : matrix float) :
  np_linalg_inv (inertia_matrix self) = Ok inverse ->
  clockwise (__post_init__ self).1 =
    Some (match clockwise self with
          | Some cw => cw
          | None => alternating (length (propellers self))
          end)
  /\ inertia_matrix_inverse (__post_init__ self).1 = Value inverse.
Proof.
  intros Hinv. rewrite post_init_unfold, Hinv.
  destruct (allocation_step_keeps (spin_step (inertia_step inverse self)))
    as [-> ->].
  rewrite spin_step_clockwise.
  destruct (spin_step_fields (inertia_step inverse self))
    as (_ & _ & _ & -> & _).
  done.
Qed.

(** The spin directions of a returned model. *)
Lemma init_clockwise (ps : list PropellerParams.t) (a d : list float)
    (cw : option (list Z)) (ms : float) (im : matrix float) (v : t) :
  __init__ ps a d cw ms im = Ok v ->
  clockwise v = Some (match cw with
                      | Some c => c
                      | None => alternating (length ps)
                      end).
Proof.
  intros Hinit. apply init_post_init in Hinit.
  pose proof (post_init_Ok _ _ Hinit) as (inverse & Hinv & _).
  apply post_init_inverted in Hinv as [Hcw _].
  by rewrite Hinit in Hcw.
Qed.

(** C6: when [clockwise] is not supplied, the constructed model has one
    spin direction per propeller, [+1] at the even indices and [-1] at the
    odd ones; for four propellers it is [+1, -1, +1, -1]. *)
Theorem default_clockwise_alternates (ps : list PropellerParams.t)
    (a d : list float) (ms : float) (im : matrix float) (v : t) :
  __init__ ps a d None ms im = Ok v ->
  exists c,
    clockwise v = Some c
    /\ length c = length ps
    /\ (forall i, i < length ps ->
          c !! i = Some (if Nat.even i then 1%Z else (-1)%Z))
    /\ (length ps = 4 -> c = [1; -1; 1; -1]%Z).
Proof.
  intros Hinit. apply init_clockwise in Hinit.
  exists (alternating (length ps)). split; [done|].
  split; [apply alternating_length|]. split.
  - intros i Hi. by apply alternating_lookup.
  - intros ->. reflexivity.
Qed.


(** C8: with [np.linalg.pinv] returning a generalised inverse, a model
    whose propellers all have both coefficients holds an [alloc] of shape
    (4, N) and an [alloc_inverse] with [alloc * alloc_inverse * alloc]
    equal to [alloc] within the tolerance of the library. *)
Theorem alloc_pseudoinverse_law (close : matrix float -> matrix float -> Prop)
    (ps : list PropellerParams.t) (a d : list float) (cw : option (list Z))
    (ms : float) (im : matrix float) (v : t) :
  pinv_contract close ->
  __init__ ps a d cw ms im = Ok v ->
  Forall (fun p => is_Some (PropellerParams.k_thrust p)
                   /\ is_Some (PropellerParams.k_torque p)) ps ->
  exists m g,
    alloc v = Value (Some m)
    /\ alloc_inverse v = Value (Some g)
    /\ has_shape m 4 (length ps)
    /\ close (matmul (matmul m g) m) m.
Proof.
  intros Hcontract Hinit Hcoef. apply coefficients_provided_spec in Hcoef.
  destruct (init_allocated _ _ _ _ _ _ _ Hinit Hcoef)
    as (m & g & c & Hm & Hg & Hpinv & _ & Hshape & _).
  exists m, g. repeat (split; [done|]). by apply Hcontract.
Qed.

(** C7, as the code has it: the steps run in sequence. A failed inversion
    of the inertia matrix ends the construction: the spin directions are
    left as given and no allocation attribute is assigned. After a
    successful inversion the spin-direction default depends on [clockwise]
    alone, and a missing coefficient turns the allocation into [None]
    without an error, whatever [clockwise] was. *)
Theorem derivation_steps_sequential (self : t) :
  (forall e, np_linalg_inv (inertia_matrix self) = Raise e ->
     (__post_init__ self).2 = Raise e
     /\ clockwise (__post_init__ self).1 = clockwise self
     /\ alloc (__post_init__ self).1 = alloc self
     /\ alloc_inverse (__post_init__ self).1 = alloc_inverse self)
  /\ (forall inverse, np_linalg_inv (inertia_matrix self) = Ok inverse ->
        inertia_matrix_inverse (__post_init__ self).1 = Value inverse
        /\ clockwise (__post_init__ self).1 =
             Some (match clockwise self with
                   | Some cw => cw
                   | None => alternating (length (propellers self))
                   end)
        /\ (coefficients_provided (propellers self) = false ->
              (__post_init__ self).2 = Ok tt
              /\ alloc (__post_init__ self).1 = Value None
              /\ alloc_inverse (__post_init__ self).1 = Value None)).
Proof.
  split.
  - intros e He. rewrite post_init_unfold, He. done.
  - intros inverse Hinv.
    destruct (post_init_inverted self inverse Hinv) as [Hcw Hfield].
    repeat (split; [done|]).
    intros Hcoef. rewrite post_init_unfold, Hinv.
    destruct (spin_step_fields (inertia_step inverse self)) as (Hps & _).
    rewrite allocation_step_missing by by rewrite Hps.
    done.
Qed.
End Derivation.

(** ** Sequences of different lengths *)

Section Lengths.
Context `{NumPy}.
Import VehicleParams.

(** The state in which the allocation step starts. *)
Lemma before_allocation (ps : list PropellerParams.t) (a d : list float)
    (cw : option (list Z)) (ms : float) (im inverse : matrix float) :
  let self := spin_step (inertia_step inverse
                           (mk ps a d cw ms im Unset Unset Unset)) in
  propellers self = ps /\ angles self = a /\ distances self = d
  /\ clockwise self = Some (match cw with
                            | Some c => c
                            | None => alternating (length ps)
                            end).
Proof.
  intros self. subst self.
  destruct (spin_step_fields
              (inertia_step inverse (mk ps a d cw ms im Unset Unset Unset)))
    as (-> & -> & -> & _).
  rewrite spin_step_clockwise. done.
Qed.

(** The construction returns a model when the inertia matrix is inverted,
    [angles] and [distances] have one length, nothing is shorter than
    [propellers], and [np.linalg.pinv] returns. *)
Lemma init_returns (ps : list PropellerParams.t) (a d : list float)
    (cw : option (list Z)) (ms : float) (im inverse : matrix float) :
  np_linalg_inv im = Ok inverse ->
  coefficients_provided ps = true ->
  length a = length d ->
  length ps <= length a ->
  (forall c, cw = Some c -> length ps <= length c) ->
  (forall m, has_shape m 4 (length ps) -> exists g, np_linalg_pinv m = Ok g) ->
  exists v, __init__ ps a d cw ms im = Ok v.
Proof.
  intros Hinv Hcoef Hlen Hps Hcw Hpinv.
  destruct (before_allocation ps a d cw ms im inverse)
    as (Hps' & Ha' & Hd' & Hcw').
  set (self := spin_step _) in *.
  assert (exists m, for_enumerate
                      (alloc_column self (zip_with fmul d (map np_sin a))
                                    (zip_with fmul d (map np_cos a)))
                      0 ps (np_zeros 4 (length ps)) = Ok m) as [m Hm].
  { pose proof (np_zeros_shape 4 (length ps)) as Hz.
    apply has_shape_4 in Hz as (r0 & r1 & r2 & r3 & -> & Hr0 & Hr1 & Hr2 & Hr3).
    eapply alloc_loop_returns; try done; cbn;
      rewrite ?length_zip_with, ?length_map; try lia.
    destruct cw as [c|]; [by apply Hcw|]. by rewrite alternating_length. }
  assert (has_shape m 4 (length ps)) as Hshape.
  { pose proof (np_zeros_shape 4 (length ps)) as Hz.
    apply has_shape_4 in Hz as (r0 & r1 & r2 & r3 & Hz & Hr0 & Hr1 & Hr2 & Hr3).
    rewrite Hz in Hm.
    eapply alloc_loop_Ok in Hm as (Hshape & _); [done..|cbn; lia]. }
  destruct (Hpinv m Hshape) as [g Hg].
  eexists. apply init_post_init.
  rewrite post_init_unfold. cbn [inertia_matrix]. rewrite Hinv.
  fold self. unfold allocation_step.
  rewrite Hps', Ha', Hd', Hcoef.
  rewrite !np_multiply_same_length by by rewrite length_map.
  rewrite Hm, Hg. reflexivity.
Qed.

End Lengths.

(** ** The geometry of a propeller *)

Section Propeller.
Context `{NumPy}.
Import PropellerParams.

(** [__post_init__] always returns, and sets the four derived attributes. *)
Lemma propeller_post_init (self : t) :
  exists self',
    __post_init__ self = Ok self'
    /\ diameter self' = diameter self /\ pitch self' = pitch self
    /\ k_thrust self' = k_thrust self /\ k_torque self' = k_torque self
    /\ R self' = Value (fmul (diameter self) (float_lit (254 # 10000)))
    /\ A self' = Value (fmul np_pi
                          (fpow (fmul (diameter self) (float_lit (254 # 10000))) 2))
    /\ theta0 self' = Value (fmul (of_int 2)
                               (blade_angle (diameter self) (pitch self)))
    /\ theta1 self' = Value (fmul (fdiv (of_int (-4)) (of_int 3))
                               (blade_angle (diameter self) (pitch self))).
Proof. eexists. split; [reflexivity|]. cbn. done. Qed.

(** C9: [theta0] and [theta1] depend on [diameter] and [pitch] only: two
    constructions that agree on them give the same [theta0] and the same
    [theta1], whatever the other fields are. *)
Theorem theta_depends_on_diameter_pitch (self1 self2 : t) :
  diameter self1 = diameter self2 ->
  pitch self1 = pitch self2 ->
  exists self1' self2' t0 t1,
    __post_init__ self1 = Ok self1'
    /\ __post_init__ self2 = Ok self2'
    /\ theta0 self1' = Value t0 /\ theta0 self2' = Value t0
    /\ theta1 self1' = Value t1 /\ theta1 self2' = Value t1.
Proof.
  intros Hd Hp.
  destruct (propeller_post_init self1)
    as (self1' & H1 & _ & _ & _ & _ & _ & _ & H10 & H11).
  destruct (propeller_post_init self2)
    as (self2' & H2 & _ & _ & _ & _ & _ & _ & H20 & H21).
  rewrite <- Hd, <- Hp in H20, H21.
  eauto 12.
Qed.
End Propeller.

(** ** The ideal interpretation *)

Section IdealLinAlg.
Import Ideal.
Local Open Scope R_scope.

Lemma ideal_inv_invertible (m : matrix float) :
  invertible m -> exists m', np_linalg_inv m = Ok m' /\ inverse_of m m'.
Proof.
  intros Hm. cbn. unfold inv.
  destruct (excluded_middle_informative (invertible m)) as [Hex|Hno]; [|done].
  destruct (constructive_indefinite_description _ Hex) as [m' Hm']. cbn. eauto.
Qed.

Lemma ideal_inv_singular (m : matrix float) :
  singular m -> np_linalg_inv m = Raise LinAlgError.
Proof.
  intros Hm. cbn. unfold inv.
  destruct (excluded_middle_informative (invertible m)) as [Hex|Hno]; done.
Qed.


Lemma ideal_pinv_contract : pinv_contract eq.
Proof.
  intros a g. cbn. unfold pinv.
  destruct (excluded_middle_informative _) as [Hex|Hno]; [|discriminate].
  destruct (constructive_indefinite_description _ Hex) as [g' Hg']. cbn.
  intros [= <-]. by destruct Hg' as (_ & Hlaw & _).
Qed.

Lemma ideal_eye_invertible : invertible (np_eye 3).
Proof.
  exists (np_eye 3). split.
  - split; [done|]. repeat constructor.
  - cbn. repeat (case_decide; [try lia|try lia]).
    repeat (f_equal; try ring).
Qed.

Lemma ideal_zeros_singular : singular (np_zeros 3 3).
Proof.
  intros (m' & [Hlen Hrows] & Hprod).
  destruct m' as [|r0 ?]; [discriminate|].
  apply Forall_cons in Hrows as [Hr0 _].
  destruct r0 as [|x0 [|x1 [|x2 [|]]]]; try discriminate.
  cbn in Hprod. injection Hprod as Hprod _. lra.
Qed.

(** A matrix of one column has a pseudoinverse: its transpose over its
    squared norm, or zero for the zero column. *)
Lemma ideal_column_pseudoinverse (x0 x1 x2 x3 : R) :
  exists g : matrix float, pseudoinverse_of [[x0]; [x1]; [x2]; [x3]] g.
Proof.
  destruct (Req_dec (x0 * x0 + x1 * x1 + x2 * x2 + x3 * x3) 0) as [Hs|Hs].
  - assert (x0 = 0) as -> by nra. assert (x1 = 0) as -> by nra.
    assert (x2 = 0) as -> by nra. assert (x3 = 0) as -> by nra.
    exists [[0; 0; 0; 0]].
    split; [split; [done|repeat constructor]|].
    split; [cbn; repeat (f_equal; try ring)|].
    split; [cbn; repeat (f_equal; try ring)|].
    split.
    + intros [|[|[|[|i]]]] [|[|[|[|j]]]]; cbn; try reflexivity; ring.
    + intros [|i] [|j]; cbn; try reflexivity.
  - set (s := x0 * x0 + x1 * x1 + x2 * x2 + x3 * x3) in *.
    exists [[x0 / s; x1 / s; x2 / s; x3 / s]].
    split; [split; [done|repeat constructor]|].
    split; [cbn; repeat (f_equal; try (subst s; field; exact Hs))|].
    split; [cbn; repeat (f_equal; try (subst s; field; exact Hs))|].
    split.
    + intros [|[|[|[|i]]]] [|[|[|[|j]]]]; cbn; try reflexivity;
        subst s; field; exact Hs.
    + intros [|i] [|j]; cbn; try reflexivity.
Qed.

Lemma ideal_pinv_column (a : matrix float) :
  has_shape a 4 1 -> exists g, np_linalg_pinv a = Ok g.
Proof.
  intros Ha.
  apply has_shape_4 in Ha as (r0 & r1 & r2 & r3 & -> & Hr0 & Hr1 & Hr2 & Hr3).
  destruct r0 as [|x0 [|]], r1 as [|x1 [|]], r2 as [|x2 [|]], r3 as [|x3 [|]];
    try discriminate.
  cbn. unfold pinv.
  destruct (excluded_middle_informative _) as [Hex|Hno]; [eauto|].
  destruct Hno. apply ideal_column_pseudoinverse.
Qed.
End IdealLinAlg.

(** ** Propellers and vehicles over the real numbers *)

Section IdealModel.
Import Ideal Examples.
Local Open Scope R_scope.

Lemma propeller_constructed (k_thrust k_torque : option R) :
  PropellerParams.__init__ 1 PropellerParams.default_diameter
    PropellerParams.default_pitch PropellerParams.default_a
    PropellerParams.default_b PropellerParams.default_c
    PropellerParams.default_eta k_thrust k_torque None
  = Ok (propeller k_thrust k_torque).
Proof. reflexivity. Qed.

(** The default diameter of 6 inches is a radius of 0.1524 m. *)
Example default_radius (k_thrust k_torque : option R) :
  PropellerParams.R (propeller k_thrust k_torque) = Value 0.1524.
Proof. cbn. f_equal. unfold Q2R. cbn. lra. Qed.

(** C3: the derived fields of a propeller are [R = diameter * 0.0254],
    [A = pi * R^2], [theta0 = 2 * atan2(pitch, 2*pi*(3/4)*diameter/2)] and
    [theta1 = -(4/3) * atan2(pitch, 2*pi*(3/4)*diameter/2)]. *)
Theorem propeller_geometry (self : PropellerParams.t) :
  exists self',
    PropellerParams.__post_init__ self = Ok self'
    /\ PropellerParams.R self'
       = Value (PropellerParams.diameter self * 0.0254)
    /\ PropellerParams.A self'
       = Value (PI * (PropellerParams.diameter self * 0.0254) ^ 2)
    /\ PropellerParams.theta0 self'
       = Value (2 * atan2 (PropellerParams.pitch self)
                      (2 * PI * (3 / 4) * PropellerParams.diameter self / 2))
    /\ PropellerParams.theta1 self'
       = Value (- (4 / 3) * atan2 (PropellerParams.pitch self)
                             (2 * PI * (3 / 4) * PropellerParams.diameter self / 2)).
Proof.
  destruct (propeller_post_init self)
    as (self' & Hpost & _ & _ & _ & _ & HR & HA & H0 & H1).
  exists self'. split; [done|].
  rewrite HR, HA, H0, H1. unfold blade_angle. cbn.
  repeat split; f_equal.
  - f_equal. f_equal. field.
  - replace (-4 / 3) with (- (4 / 3)) by field. f_equal. f_equal. field.
Qed.

(** C10: the taper is a fixed multiple of the root pitch angle:
    [theta1 = -(2/3) * theta0], for every diameter and pitch. *)
Theorem theta1_theta0_ratio (self : PropellerParams.t) :
  exists self' t0 t1,
    PropellerParams.__post_init__ self = Ok self'
    /\ PropellerParams.theta0 self' = Value t0
    /\ PropellerParams.theta1 self' = Value t1
    /\ t1 = - (2 / 3) * t0.
Proof.
  destruct (propeller_post_init self)
    as (self' & Hpost & _ & _ & _ & _ & _ & _ & H0 & H1).
  eexists self', _, _. repeat (split; [done|]).
  cbn. field.
Qed.

Lemma theta_depends_on_diameter_pitch_witness :
  exists self1' self2' t0 t1,
    PropellerParams.__post_init__ (propeller (Some 1) (Some 1)) = Ok self1'
    /\ PropellerParams.__post_init__ (propeller None None) = Ok self2'
    /\ PropellerParams.theta0 self1' = Value t0
    /\ PropellerParams.theta0 self2' = Value t0
    /\ PropellerParams.theta1 self1' = Value t1
    /\ PropellerParams.theta1 self2' = Value t1.
Proof.
  apply (theta_depends_on_diameter_pitch
           (propeller (Some 1) (Some 1)) (propeller None None));
    reflexivity.
Defined.

(** *** Constructions that return *)

Lemma eye_inverted :
  exists inverse : matrix float,
    np_linalg_inv VehicleParams.default_inertia_matrix = Ok inverse.
Proof.
  destruct (ideal_inv_invertible _ ideal_eye_invertible) as (inverse & Hinv & _).
  eauto.
Qed.

Lemma single_complete :
  Forall (fun p => is_Some (PropellerParams.k_thrust p)
                   /\ is_Some (PropellerParams.k_torque p)) single.
Proof. repeat constructor; cbn; eauto. Qed.


(** A vehicle of one propeller is constructed whenever [angles],
    [distances] and [clockwise] have at least one entry. *)
Lemma single_returns (a d : list float) (cw : option (list Z)) :
  length a = length d -> (1 <= length a)%nat ->
  (forall c, cw = Some c -> (1 <= length c)%nat) ->
  exists v, VehicleParams.__init__ single a d cw VehicleParams.default_mass
              VehicleParams.default_inertia_matrix = Ok v.
Proof.
  intros Hlen Ha Hcw. destruct eye_inverted as [inverse Hinv].
  eapply init_returns; [exact Hinv|reflexivity|done|done|done|].
  intros m Hm. by apply ideal_pinv_column.
Qed.


(** *** The theorems on vehicles, at concrete vehicles *)

Lemma alloc_columns_witness :
  exists v m,
    VehicleParams.__init__ single [0] [0] None VehicleParams.default_mass
      VehicleParams.default_inertia_matrix = Ok v
    /\ VehicleParams.alloc v = Value (Some m)
    /\ has_shape m 4 1
    /\ column m 0 = [Some (- 1); Some (1 * (0 * sin 0)); Some (1 * (0 * cos 0));
                     Some (1 * 1)].
Proof.
  destruct (single_returns [0] [0] None) as [v Hv]; [done|cbn; lia|done|].
  destruct (alloc_columns single [0] [0] None _ _ v Hv single_complete)
    as (m & c & Hm & Hc & Hshape & Hcols); [done|].
  exists v, m. repeat (split; [done|]).
  destruct (Hcols 0%nat _ eq_refl)
    as (kt & kq & a_i & d_i & c_i & Hkt & Hkq & Ha & Hd & Hci & Hcol).
  rewrite (init_clockwise _ _ _ _ _ _ _ Hv) in Hc. injection Hc as <-.
  cbn in Hkt, Hkq, Ha, Hd, Hci.
  injection Hkt as <-. injection Hkq as <-. injection Ha as <-.
  injection Hd as <-. injection Hci as <-. exact Hcol.
Defined.


Lemma default_clockwise_alternates_witness :
  exists v c,
    VehicleParams.__init__ single [0] [0] None VehicleParams.default_mass
      VehicleParams.default_inertia_matrix = Ok v
    /\ VehicleParams.clockwise v = Some c
    /\ length c = 1%nat
    /\ c !! 0%nat = Some 1%Z.
Proof.
  destruct (single_returns [0] [0] None) as [v Hv]; [done|cbn; lia|done|].
  destruct (default_clockwise_alternates single [0] [0] _ _ v Hv)
    as (c & Hc & Hlen & Hsigns & _).
  exists v, c. repeat (split; [done|]).
  apply (Hsigns 0%nat). cbn. lia.
Defined.


Lemma alloc_pseudoinverse_law_witness :
  exists v m g,
    VehicleParams.__init__ single [0] [0] None VehicleParams.default_mass
      VehicleParams.default_inertia_matrix = Ok v
    /\ VehicleParams.alloc v = Value (Some m)
    /\ VehicleParams.alloc_inverse v = Value (Some g)
    /\ has_shape m 4 1
    /\ matmul (matmul m g) m = m.
Proof.
  destruct (single_returns [0] [0] None) as [v Hv]; [done|cbn; lia|done|].
  destruct (alloc_pseudoinverse_law eq single [0] [0] None _ _ v
              ideal_pinv_contract Hv single_complete)
    as (m & g & Hm & Hg & Hshape & Hlaw).
  exists v, m, g. done.
Defined.

Lemma derivation_steps_sequential_witness :
  let self := VehicleParams.mk single [0] [0] None VehicleParams.default_mass
                (np_zeros 3 3) Unset Unset Unset in
  (VehicleParams.__post_init__ self).2 = Raise LinAlgError
  /\ VehicleParams.clockwise (VehicleParams.__post_init__ self).1 = None
  /\ VehicleParams.alloc (VehicleParams.__post_init__ self).1 = Unset
  /\ VehicleParams.alloc_inverse (VehicleParams.__post_init__ self).1 = Unset.
Proof.
  intros self.
  destruct (derivation_steps_sequential self) as [Hfailed _].
  apply Hfailed. apply ideal_inv_singular, ideal_zeros_singular.
Defined.


(** *** Where the specification and the code part *)


(** C7 does not hold: with a singular inertia matrix the construction stops
    at the inversion; the spin directions are still [None] and neither
    [alloc] nor [alloc_inverse] is assigned. *)
Lemma singular_inertia_aborts :
  let self := VehicleParams.mk single [0] [0] None VehicleParams.default_mass
                (np_zeros 3 3) Unset Unset Unset in
  singular (VehicleParams.inertia_matrix self)
  /\ VehicleParams.__post_init__ self
     = (VehicleParams.set_distances [0] self, Raise LinAlgError)
  /\ ~ (is_Some (VehicleParams.clockwise (VehicleParams.__post_init__ self).1)
        /\ VehicleParams.alloc (VehicleParams.__post_init__ self).1 <> Unset).
Proof.
  intros self. split; [exact ideal_zeros_singular|].
  assert (VehicleParams.__post_init__ self
          = (VehicleParams.set_distances [0] self, Raise LinAlgError)) as Hpost.
  { rewrite post_init_unfold.
    change (VehicleParams.inertia_matrix self) with (np_zeros 3 3).
    by rewrite (ideal_inv_singular _ ideal_zeros_singular). }
  split; [done|]. rewrite Hpost. cbn. intros [[c Hc] _]. discriminate.
Qed.
End IdealModel.

(** * Further properties of the constructors *)

(** ** Running [VehicleParams.__post_init__] again *)

Section VehicleFrame.
Context `{NumPy}.
Import VehicleParams.

(** The loop body reads [self] for its spin directions only. *)
Lemma alloc_column_clockwise (self1 self2 : t) (x y : list float) (i : nat)
    (p : PropellerParams.t) (m : matrix float) :
  clockwise self1 = clockwise self2 ->
  alloc_column self1 x y i p m = alloc_column self2 x y i p m.
Proof. intros Hcw. unfold alloc_column. by rewrite Hcw. Qed.

Lemma for_enumerate_ext {P St} (f g : nat -> P -> St -> Exc St) (ps : list P) :
  (forall i p s, f i p s = g i p s) ->
  forall i s, for_enumerate f i ps s = for_enumerate g i ps s.
Proof.
  intros Hfg. induction ps as [|p ps IH]; intros i s; cbn; [done|].
  rewrite Hfg. unfold mbind, Exc_bind, exc_bind.
  destruct (g i p s); [apply IH|done].
Qed.

Lemma alloc_loop_clockwise (self1 self2 : t) (x y : list float)
    (ps : list PropellerParams.t) (i : nat) (m : matrix float) :
  clockwise self1 = clockwise self2 ->
  for_enumerate (alloc_column self1 x y) i ps m
  = for_enumerate (alloc_column self2 x y) i ps m.
Proof.
  intros Hcw. apply for_enumerate_ext. intros.
  by apply alloc_column_clockwise.
Qed.

(** X2: the derivation is idempotent: running [__post_init__] again on a
    model it returned changes nothing and returns again. *)
Theorem post_init_idempotent (self self' : t) :
  __post_init__ self = (self', Ok tt) ->
  __post_init__ self' = (self', Ok tt).
Proof.
  intros Hpost. apply post_init_Ok in Hpost as (inverse & Hinv & Hstep).
  destruct self as [ps a d cw ms im imi al ali]. cbn in Hinv.
  set (c := match cw with Some c => c | None => alternating (length ps) end).
  assert (spin_step (inertia_step inverse (mk ps a d cw ms im imi al ali))
          = mk ps a d (Some c) ms im (Value inverse) al ali) as Hs2.
  { subst c. by destruct cw. }
  rewrite Hs2 in Hstep. clear Hs2.
  destruct (coefficients_provided ps) eqn:Hcoef.
  - apply allocation_step_provided in Hstep
      as (x & y & m & g & Hx & Hy & Hm & Hg & ->); [|done].
    cbn [propellers angles distances] in Hx, Hy, Hm.
    rewrite post_init_unfold. cbn [inertia_matrix set_alloc_inverse set_alloc].
    rewrite Hinv. unfold allocation_step, spin_step, inertia_step.
    cbn [propellers angles distances clockwise mass inertia_matrix
         inertia_matrix_inverse alloc alloc_inverse is_None
         set_inertia_matrix_inverse set_distances set_alloc set_alloc_inverse].
    rewrite Hcoef. unfold astype_float. rewrite Hx, Hy.
    rewrite (alloc_loop_clockwise _
               (mk ps a d (Some c) ms im (Value inverse) al ali)) by reflexivity.
    rewrite Hm, Hg. reflexivity.
  - rewrite allocation_step_missing in Hstep by done.
    injection Hstep as <-.
    rewrite post_init_unfold. cbn [inertia_matrix set_alloc_inverse set_alloc].
    rewrite Hinv. unfold allocation_step, spin_step, inertia_step.
    cbn [propellers angles distances clockwise mass inertia_matrix
         inertia_matrix_inverse alloc alloc_inverse is_None
         set_inertia_matrix_inverse set_distances set_alloc set_alloc_inverse].
    rewrite Hcoef. reflexivity.
Qed.

End VehicleFrame.

(** ** The allocation matrix under broadcasting *)

Section Broadcasting.
Context `{NumPy}.
Import VehicleParams.

(** The columns of [alloc], in terms of the arrays [x] and [y] the source
    computes, whatever the lengths of [angles] and [distances]. *)
Lemma init_columns_xy (ps : list PropellerParams.t) (a d : list float)
    (cw : option (list Z)) (ms : float) (im : matrix float) (v : t) :
  __init__ ps a d cw ms im = Ok v ->
  coefficients_provided ps = true ->
  exists m c x y,
    alloc v = Value (Some m) /\ clockwise v = Some c
    /\ np_multiply d (map np_sin a) = Ok x
    /\ np_multiply d (map np_cos a) = Ok y
    /\ has_shape m 4 (length ps)
    /\ forall i p, ps !! i = Some p ->
         exists kt kq xi yi ci,
           PropellerParams.k_thrust p = Some kt
           /\ PropellerParams.k_torque p = Some kq
           /\ x !! i = Some xi /\ y !! i = Some yi /\ c !! i = Some ci
           /\ column m i =
              [Some (fneg kt); Some (fmul kt xi); Some (fmul kt yi);
               Some (fmul kq (of_int ci))].
Proof.
  intros Hinit Hcoef. apply init_post_init in Hinit.
  apply post_init_Ok in Hinit as (inverse & Hinv & Hstep).
  destruct (before_allocation ps a d cw ms im inverse) as (Hps & Han & Hdi & Hcw).
  set (s2 := spin_step _) in *.
  apply allocation_step_provided in Hstep
    as (x & y & m & g & Hx & Hy & Hloop & Hg & ->); [|by rewrite Hps].
  rewrite Hps, Han, Hdi in *.
  pose proof (np_zeros_shape 4 (length ps)) as Hz.
  apply has_shape_4 in Hz as (r0 & r1 & r2 & r3 & Hz & Hr0 & Hr1 & Hr2 & Hr3).
  rewrite Hz in Hloop.
  eapply alloc_loop_Ok in Hloop as (Hshape & _ & Hcols); [|done..|cbn; lia].
  eexists m, _, x, y. repeat (split; [done|]).
  intros i p Hp.
  destruct (Hcols i p Hp)
    as (kt & kq & xi & yi & c & ci & Hkt & Hkq & Hxi & Hyi & Hc & Hci & Hcol).
  cbn in Hxi, Hyi, Hci. rewrite Hcw in Hc. injection Hc as <-.
  exists kt, kq, xi, yi, ci. done.
Qed.

Lemma np_multiply_single_l (d0 : float) (b x : list float) (i : nat) :
  np_multiply [d0] b = Ok x -> x !! i = fmul d0 <$> b !! i.
Proof.
  unfold np_multiply. destruct (decide _) as [Hlen|Hlen].
  - destruct b as [|b0 [|]]; try discriminate. intros [= <-].
    by destruct i.
  - intros [= <-]. apply list_lookup_fmap.
Qed.

(** X5: a [distances] array of one entry is stretched over all propellers:
    every column is computed with that one distance. *)
Theorem single_distance_shared (ps : list PropellerParams.t) (a : list float)
    (d0 : float) (cw : option (list Z)) (ms : float) (im : matrix float)
    (v : t) :
  __init__ ps a [d0] cw ms im = Ok v ->
  Forall (fun p => is_Some (PropellerParams.k_thrust p)
                   /\ is_Some (PropellerParams.k_torque p)) ps ->
  exists m c,
    alloc v = Value (Some m) /\ clockwise v = Some c
    /\ forall i p, ps !! i = Some p ->
         exists kt kq a_i c_i,
           PropellerParams.k_thrust p = Some kt
           /\ PropellerParams.k_torque p = Some kq
           /\ a !! i = Some a_i /\ c !! i = Some c_i
           /\ column m i =
              [Some (fneg kt);
               Some (fmul kt (fmul d0 (np_sin a_i)));
               Some (fmul kt (fmul d0 (np_cos a_i)));
               Some (fmul kq (of_int c_i))].
Proof.
  intros Hinit Hcoef. apply coefficients_provided_spec in Hcoef.
  destruct (init_columns_xy _ _ _ _ _ _ _ Hinit Hcoef)
    as (m & c & x & y & Hm & Hc & Hx & Hy & _ & Hcols).
  exists m, c. repeat (split; [done|]).
  intros i p Hp.
  destruct (Hcols i p Hp)
    as (kt & kq & xi & yi & ci & Hkt & Hkq & Hxi & Hyi & Hci & Hcol).
  rewrite (np_multiply_single_l _ _ _ i Hx), list_lookup_fmap in Hxi.
  rewrite (np_multiply_single_l _ _ _ i Hy), list_lookup_fmap in Hyi.
  destruct (a !! i) as [a_i|]; [|done].
  cbn in Hxi, Hyi. injection Hxi as <-. injection Hyi as <-.
  exists kt, kq, a_i, ci. done.
Qed.

(** X7: a vehicle without propellers passes the guard: its [alloc] is the
    empty matrix of four rows, not [None], and its default [clockwise] is
    empty. *)
Theorem no_propellers_empty_alloc (a d : list float) (cw : option (list Z))
    (ms : float) (im : matrix float) (v : t) :
  __init__ [] a d cw ms im = Ok v ->
  alloc v = Value (Some [[]; []; []; []])
  /\ (cw = None -> clockwise v = Some []).
Proof.
  intros Hinit.
  destruct (init_columns_xy _ _ _ _ _ _ _ Hinit eq_refl)
    as (m & c & x & y & Hm & Hc & _ & _ & Hshape & _).
  apply has_shape_4 in Hshape as (r0 & r1 & r2 & r3 & -> & Hr0 & Hr1 & Hr2 & Hr3).
  apply nil_length_inv in Hr0, Hr1, Hr2, Hr3. subst.
  split; [done|]. intros ->.
  by rewrite (init_clockwise _ _ _ _ _ _ _ Hinit).
Qed.
End Broadcasting.

(** ** What a failed construction leaves and what it can raise *)

Section Failures.
Context `{NumPy}.
Import VehicleParams.



End Failures.



(** ** The blade angles, over the real numbers *)

Section BladeAngles.
Import Ideal Examples.
Local Open Scope R_scope.

Lemma atan2_right (y x : R) : 0 < x -> atan2 y x = atan (y / x).
Proof.
  intros Hx. unfold atan2.
  destruct (total_order_T x 0) as [[Hlt|Heq]|Hgt]; [lra|lra|done].
Qed.

(** The second argument of [np.arctan2]: three quarters of the
    circumference at half the diameter. *)
Lemma blade_angle_eq (diameter pitch : R) :
  blade_angle diameter pitch = atan2 pitch (3 * PI / 4 * diameter).
Proof. unfold blade_angle. cbn. f_equal. field. Qed.

Lemma blade_angle_range (diameter pitch : R) :
  0 < diameter -> 0 < pitch ->
  0 < blade_angle diameter pitch < PI / 2.
Proof.
  intros Hd Hp. rewrite blade_angle_eq.
  pose proof PI_RGT_0 as Hpi.
  assert (0 < 3 * PI / 4 * diameter) as Hx by nra.
  rewrite atan2_right by done.
  assert (0 < pitch / (3 * PI / 4 * diameter)) as Hq
    by (apply Rdiv_lt_0_compat; lra).
  pose proof (atan_increasing _ _ Hq) as Hinc. rewrite atan_0 in Hinc.
  pose proof (atan_bound (pitch / (3 * PI / 4 * diameter))) as [_ Hub].
  lra.
Qed.

(** X12: for a positive diameter and pitch the derived geometry is
    proper: the radius and the disc area are positive, the root pitch angle
    [theta0] lies strictly between 0 and pi, and the taper [theta1] strictly
    between -2*pi/3 and 0. *)
Theorem propeller_geometry_ranges (self : PropellerParams.t) :
  0 < PropellerParams.diameter self ->
  0 < PropellerParams.pitch self ->
  exists self' r ar t0 t1,
    PropellerParams.__post_init__ self = Ok self'
    /\ PropellerParams.R self' = Value r /\ 0 < r
    /\ PropellerParams.A self' = Value ar /\ 0 < ar
    /\ PropellerParams.theta0 self' = Value t0 /\ 0 < t0 < PI
    /\ PropellerParams.theta1 self' = Value t1 /\ - (2 * PI / 3) < t1 < 0.
Proof.
  intros Hd Hp.
  destruct (propeller_post_init self)
    as (self' & Hpost & _ & _ & _ & _ & HR & HA & H0 & H1).
  pose proof (blade_angle_range _ _ Hd Hp) as [Hlo Hhi].
  pose proof PI_RGT_0 as Hpi.
  set (t := blade_angle _ _) in *. clearbody t.
  eexists self', _, _, _, _. split; [done|].
  split; [exact HR|]. split.
  { cbn. unfold Q2R. cbn. nra. }
  split; [exact HA|]. split.
  { cbn. unfold Q2R. cbn.
    assert (0 < PropellerParams.diameter self * (254 * / 10000)) by nra.
    apply Rmult_lt_0_compat; [exact PI_RGT_0|]. by apply pow_lt. }
  split; [exact H0|]. split; [cbn; lra|].
  split; [exact H1|]. cbn. lra.
Qed.

End BladeAngles.

(** ** Constructions that return under broadcasting *)

Section Returns.
Context `{NumPy}.
Import VehicleParams.

(** As [init_returns], for [angles] and [distances] that numpy
    broadcasts. *)
Lemma init_returns_broadcast (ps : list PropellerParams.t) (a d : list float)
    (cw : option (list Z)) (ms : float) (im inverse : matrix float)
    (x y : list float) :
  np_linalg_inv im = Ok inverse ->
  coefficients_provided ps = true ->
  np_multiply d (map np_sin a) = Ok x ->
  np_multiply d (map np_cos a) = Ok y ->
  length ps <= length x -> length ps <= length y ->
  (forall c, cw = Some c -> length ps <= length c) ->
  (forall m, has_shape m 4 (length ps) -> exists g, np_linalg_pinv m = Ok g) ->
  exists v, __init__ ps a d cw ms im = Ok v.
Proof.
  intros Hinv Hcoef Hx Hy Hlx Hly Hcw Hpinv.
  destruct (before_allocation ps a d cw ms im inverse)
    as (Hps' & Ha' & Hd' & Hcw').
  set (self := spin_step _) in *.
  pose proof (np_zeros_shape 4 (length ps)) as Hz.
  apply has_shape_4 in Hz as (r0 & r1 & r2 & r3 & Hz & Hr0 & Hr1 & Hr2 & Hr3).
  assert (exists m, for_enumerate (alloc_column self x y)
                      0 ps [r0; r1; r2; r3] = Ok m) as [m Hm].
  { eapply alloc_loop_returns; try done; cbn; try lia.
    destruct cw as [c|]; [by apply Hcw|]. by rewrite alternating_length. }
  pose proof Hm as Hloop.
  eapply alloc_loop_Ok in Hloop as (Hshape & _); [|done..|cbn; lia].
  destruct (Hpinv m Hshape) as [g Hg].
  eexists. apply init_post_init.
  rewrite post_init_unfold. cbn [inertia_matrix]. rewrite Hinv.
  fold self. unfold allocation_step.
  rewrite Hps', Ha', Hd', Hcoef, Hx, Hy, Hz, Hm, Hg. reflexivity.
Qed.
End Returns.


(** ** The further properties, at concrete propellers and vehicles *)

Section Instances.
Import Ideal Examples Layouts.
Local Open Scope R_scope.

Lemma ideal_pinv_empty (a : matrix float) :
  has_shape a 4 0 -> exists g, np_linalg_pinv a = Ok g.
Proof.
  intros Ha.
  apply has_shape_4 in Ha as (r0 & r1 & r2 & r3 & -> & Hr0 & Hr1 & Hr2 & Hr3).
  apply nil_length_inv in Hr0, Hr1, Hr2, Hr3. subst.
  cbn. unfold pinv.
  destruct (excluded_middle_informative _) as [Hex|Hno]; [eauto|].
  destruct Hno. exists [].
  split; [split; [done|constructor]|].
  repeat split; try done.
  intros [|[|[|[|i]]]] [|[|[|[|j]]]]; reflexivity.
Qed.


Lemma post_init_idempotent_witness :
  exists v,
    VehicleParams.__post_init__
      (VehicleParams.mk single [0] [0] None VehicleParams.default_mass
         VehicleParams.default_inertia_matrix Unset Unset Unset) = (v, Ok tt)
    /\ VehicleParams.__post_init__ v = (v, Ok tt).
Proof.
  destruct (single_returns [0] [0] None) as [v Hv]; [done|cbn; lia|done|].
  apply init_post_init in Hv. exists v. split; [exact Hv|].
  exact (post_init_idempotent _ v Hv).
Defined.

Lemma single_distance_shared_witness :
  exists v m,
    VehicleParams.__init__ single [0; PI] [0] None VehicleParams.default_mass
      VehicleParams.default_inertia_matrix = Ok v
    /\ VehicleParams.alloc v = Value (Some m)
    /\ column m 0 = [Some (- 1); Some (1 * (0 * sin 0)); Some (1 * (0 * cos 0));
                     Some (1 * 1)].
Proof.
  destruct eye_inverted as [inverse Hinv].
  destruct (init_returns_broadcast single [0; PI] [0] None
              VehicleParams.default_mass VehicleParams.default_inertia_matrix
              inverse [0 * sin 0; 0 * sin PI] [0 * cos 0; 0 * cos PI])
    as [v Hv];
    [exact Hinv|reflexivity|reflexivity|reflexivity|cbn; lia|cbn; lia|done|
     intros m Hm; by apply ideal_pinv_column|].
  destruct (single_distance_shared single [0; PI] 0 None _ _ v Hv single_complete)
    as (m & c & Hm & Hc & Hcols).
  exists v, m. repeat (split; [done|]).
  destruct (Hcols 0%nat _ eq_refl)
    as (kt & kq & a_i & c_i & Hkt & Hkq & Ha & Hci & Hcol).
  rewrite (init_clockwise _ _ _ _ _ _ _ Hv) in Hc. injection Hc as <-.
  cbn in Hkt, Hkq, Ha, Hci.
  injection Hkt as <-. injection Hkq as <-. injection Ha as <-.
  injection Hci as <-. exact Hcol.
Defined.

Lemma no_propellers_empty_alloc_witness :
  exists v,
    VehicleParams.__init__ [] [] [] None VehicleParams.default_mass
      VehicleParams.default_inertia_matrix = Ok v
    /\ VehicleParams.alloc v = Value (Some [[]; []; []; []])
    /\ VehicleParams.clockwise v = Some [].
Proof.
  destruct eye_inverted as [inverse Hinv].
  destruct (init_returns [] [] [] None VehicleParams.default_mass
              VehicleParams.default_inertia_matrix inverse) as [v Hv];
    [exact Hinv|reflexivity|done|cbn; lia|done|
     intros m Hm; by apply ideal_pinv_empty|].
  exists v. split; [exact Hv|].
  destruct (no_propellers_empty_alloc [] [] None _ _ v Hv) as [Hm Hc].
  split; [exact Hm|]. by apply Hc.
Defined.


Lemma propeller_geometry_ranges_witness :
  exists self' t0 t1,
    PropellerParams.__post_init__ (blank 6 3) = Ok self'
    /\ PropellerParams.theta0 self' = Value t0 /\ 0 < t0 < PI
    /\ PropellerParams.theta1 self' = Value t1 /\ - (2 * PI / 3) < t1 < 0.
Proof.
  destruct (propeller_geometry_ranges (blank 6 3))
    as (self' & r & ar & t0 & t1 & Hpost & _ & _ & _ & _ & H0 & Hr0 & H1 & Hr1);
    [cbn; lra|cbn; lra|].
  exists self', t0, t1. done.
Defined.

End Instances.
